(** * HostInfoPosix: the POSIX host-introspection adapter of LLDB

    A shallow embedding of [lldb/source/Host/posix/HostInfoPosix.cpp].

    The operating system is an oracle ([Host]): every libc call the file
    makes is answered by a field of that record and leaves an event in a
    trace, so that a statement can speak about which calls were made and in
    which order.  Output parameters ([std::string &], [FileSpec &]) are
    passed in and returned.  A [std::string] and a NUL-terminated C string
    are both a [string].  A [std::string] of the caller may hold NUL
    characters; what C code reads of it through [c_str()], [data()] or a
    [%s] conversion is [c_str] of it, its text before the first NUL.  The
    strings the operating system hands over are C strings and hold no NUL,
    so a [std::string] built from one is that string. *)

From Stdlib Require Import String Ascii List ZArith Bool Lia.
Import ListNotations.
Local Open Scope list_scope.
Local Open Scope string_scope.

(** ** C strings *)

(** What C code reads at the start of [s]: the characters before the first
    NUL. *)
Fixpoint c_str (s : string) : string :=
  match s with
  | EmptyString => EmptyString
  | String c s' =>
      if Ascii.eqb c Ascii.zero then EmptyString else String c (c_str s')
  end.


(** [strip_prefix p s]: the rest of [s] after its prefix [p], if [s] starts
    with [p] ([strncmp] over the length of [p], then the pointer past it). *)
Fixpoint strip_prefix (p s : string) : option string :=
  match p with
  | EmptyString => Some s
  | String c p' =>
      match s with
      | EmptyString => None
      | String d s' => if Ascii.eqb c d then strip_prefix p' s' else None
      end
  end.

(** ** Values exchanged with the operating system *)

(** [id_t], wide enough for a [uid_t] or a [gid_t]. *)
Definition id_t := Z.

(** [struct passwd], [struct group] and [struct hostent], reduced to the
    fields the file reads. *)
Record passwd := { pw_name : string }.
Record group := { gr_name : string }.
Record hostent := { h_name : string }.

(** ** Paths *)

Module path.

(** Modelled from the spec: [llvm::sys::path::parent_path] lives in
    llvm/lib/Support/Path.cpp, outside this compilation unit.  The spec
    describes it as the parent of a directory obtained by textual trimming of
    the trailing path segment, with an empty parent for a root directory.  The
    definitions below spell that trimming out for the POSIX style, where the
    only separator is the slash. *)
Definition is_separator (c : ascii) : bool := Ascii.eqb c "/"%char.

(** [str[i]] is a separator; [false] out of range. *)
Definition sep_at (str : string) (i : nat) : bool :=
  match String.get i str with
  | Some c => is_separator c
  | None => false
  end.

(** [str.find_last_of('/', from)]: the greatest position [<= from] that holds
    a separator, [None] for [npos]. *)
Fixpoint find_last_of (str : string) (from : nat) : option nat :=
  if sep_at str from then Some from
  else match from with
       | O => None
       | S from' => find_last_of str from'
       end.

(** [str.find_first_of('/', from)], searching at most [fuel] positions. *)
Fixpoint find_first_of_aux (str : string) (from fuel : nat) : option nat :=
  match fuel with
  | O => None
  | S fuel' =>
      if sep_at str from then Some from
      else find_first_of_aux str (S from) fuel'
  end.

Definition find_first_of (str : string) (from : nat) : option nat :=
  find_first_of_aux str from (String.length str - from).

(** Start of the last segment of [str]. *)
Definition filename_pos (str : string) : nat :=
  let size := String.length str in
  if (0 <? size)%nat && sep_at str (size - 1) then size - 1
  else
    match (if (0 <? size)%nat then find_last_of str (size - 1) else None) with
    | None => 0
    | Some pos => if (pos =? 1)%nat && sep_at str 0 then 0 else pos + 1
    end.

(** Position of the root directory of [str], [None] when it has none. *)
Definition root_dir_start (str : string) : option nat :=
  let size := String.length str in
  if (3 <? size)%nat && sep_at str 0 && sep_at str 1 && negb (sep_at str 2)
  then find_first_of str 2
  else if (0 <? size)%nat && sep_at str 0 then Some 0%nat
  else None.

(** The loop of [parent_path_end]: step back over the separators that end
    the parent, stopping at the root directory. *)
Fixpoint skip_separators (path : string) (root_dir_pos : option nat)
    (end_pos : nat) : nat :=
  match end_pos with
  | O => O
  | S before =>
      if match root_dir_pos with
         | None => true
         | Some r => (r <? end_pos)%nat
         end && sep_at path before
      then skip_separators path root_dir_pos before
      else end_pos
  end.

Definition parent_path_end (path : string) : nat :=
  let end_pos := filename_pos path in
  let filename_was_sep :=
    (0 <? String.length path)%nat && sep_at path end_pos in
  let root_dir_pos := root_dir_start path in
  let end_pos := skip_separators path root_dir_pos end_pos in
  match root_dir_pos with
  | Some r =>
      if (end_pos =? r)%nat && negb filename_was_sep then r + 1 else end_pos
  | None => end_pos
  end.

Definition parent_path (path : string) : string :=
  substring 0 (parent_path_end path) path.

(** The last segment, for a path that does not end in a separator. *)
Definition filename (path : string) : string :=
  let pos := filename_pos path in
  substring pos (String.length path - pos) path.

End path.

(** ** The file-path value type *)

(** Modelled from the spec: [ConstString] (lldb/Utility/ConstString.h) is
    not part of this compilation unit; the spec treats the components of a
    path as strings.  Its conversion to [bool] tells whether the string is
    non-empty. *)
Module ConstString.

Definition t := string.

Definition to_bool (s : t) : bool := negb (s =? "").

Definition SetString (s : string) : t := s.

Definition SetCString (cstr : string) : t := cstr.

Definition GetStringRef (s : t) : string := s.

End ConstString.

(** Modelled from the spec: [FileSpec] (lldb/Utility/FileSpec.h) is not part
    of this compilation unit; the spec gives it as a pair of a directory
    string and a filename string, a value type. *)
Record FileSpec := mkFileSpec {
  m_directory : ConstString.t;
  m_filename : ConstString.t
}.

Module FileSpecOps.

(** [FileSpec::operator bool]: some component is set. *)
Definition to_bool (f : FileSpec) : bool :=
  ConstString.to_bool (m_filename f) || ConstString.to_bool (m_directory f).

(** Last character of a string ([StringRef::back]). *)
Definition back (s : string) : option ascii :=
  String.get (String.length s - 1) s.

Definition ends_in_slash (s : string) : bool :=
  match back s with
  | Some c => path.is_separator c
  | None => false
  end.

(** [FileSpec::GetPath]: the directory, a slash when both components are set
    and neither ends in one, the filename. *)
Definition GetPath (f : FileSpec) : string :=
  m_directory f
  ++ (if ConstString.to_bool (m_directory f)
         && ConstString.to_bool (m_filename f)
         && negb (ends_in_slash (m_directory f))
         && negb (ends_in_slash (m_filename f))
      then "/" else "")
  ++ m_filename f.

(** The constructor [FileSpec(path)]: the path split into its parent and its
    last segment.  The removal of [.], [..] and doubled separators that the
    constructor performs first is left out; the file only constructs a
    [FileSpec] from literals on which it changes nothing. *)
Definition of_path (pathname : string) : FileSpec :=
  if pathname =? "" then mkFileSpec "" ""
  else mkFileSpec (path.parent_path pathname) (path.filename pathname).

(** [f.GetDirectory() = d]: the directory is replaced, the filename stays. *)
Definition set_directory (f : FileSpec) (d : ConstString.t) : FileSpec :=
  mkFileSpec d (m_filename f).

End FileSpecOps.

(** ** The host and the build *)

(** The preprocessor symbols the file tests. *)
Record Build := mkBuild {
  __ANDROID__ : bool;
  __ANDROID_API__ : option Z;
  NDEBUG : bool
}.

(** [#if defined(__ANDROID_API__) && __ANDROID_API__ < 21] *)
Definition USE_GETPWUID (b : Build) : bool :=
  match __ANDROID_API__ b with
  | Some api => (api <? 21)%Z
  | None => false
  end.

(** What the operating system and the host-info base answer.  A lookup that
    fills a result pointer answers with [None] for a null pointer; a call
    with a return code answers with the code first.  [os_environ] is
    [environ]: the entries of the process environment, each a C string of
    the form [name=value], in their order. *)
Record Host := mkHost {
  os_gethostname : Z * string;
  os_gethostbyname : string -> option hostent;
  os_getpwuid : id_t -> option passwd;
  os_getpwuid_r : id_t -> Z * option passwd;
  os_getgrgid_r : id_t -> Z * option group;
  os_getgrgid : id_t -> option group;
  os_environ : list string;
  os_GetShlibDir : FileSpec;
  os_host_log : bool
}.

(** ** Calls, traces and failures *)

Inductive Event : Type :=
| call_gethostname
| call_gethostbyname (name : string)
| call_getpwuid (uid : id_t)
| call_getpwuid_r (uid : id_t)
| call_getgrgid_r (gid : id_t)
| call_getgrgid (gid : id_t)
| call_getenv (name : string)
| log_Printf (message : string).

Inductive result (A : Type) : Type :=
| Ok (a : A)
| AssertionFailed (message : string).
Arguments Ok {A} a.
Arguments AssertionFailed {A} message.

(** A computation yields a result and the events it caused, oldest first. *)
Definition Sys (A : Type) : Type := (result A * list Event)%type.

Definition ret {A} (a : A) : Sys A := (Ok a, []).

Definition bind {A B} (m : Sys A) (k : A -> Sys B) : Sys B :=
  match m with
  | (Ok a, t) => let (r, t') := k a in (r, (t ++ t')%list)
  | (AssertionFailed msg, t) => (AssertionFailed msg, t)
  end.

Definition emit (e : Event) : Sys unit := (Ok tt, [e]).

Definition assert_fail {A} (message : string) : Sys A :=
  (AssertionFailed message, []).

Declare Scope sys_scope.
Delimit Scope sys_scope with sys.
Notation "x <- m ;; k" := (bind m (fun x => k))
  (at level 100, m at next level, right associativity) : sys_scope.
Notation "' pat <- m ;; k" := (bind m (fun x => match x with pat => k end))
  (at level 100, pat pattern, m at next level, right associativity) : sys_scope.
Notation "m ;; k" := (bind m (fun _ => k))
  (at level 100, right associativity) : sys_scope.
Local Open Scope sys_scope.

Definition value {A} (m : Sys A) : result A := fst m.
Definition trace {A} (m : Sys A) : list Event := snd m.

(** ** Log messages *)

(** The three messages of [ComputePathRelativeToLibrary], as [Printf]
    formats them; [__FUNCTION__] is the name of that function.  Each [%s]
    prints the C string at its argument, [dir.data()] or [raw_path.c_str()]:
    the text before the first NUL.  The suffix [dir] is taken to view a
    whole NUL-terminated buffer, as the literal of
    [ComputeSupportExeDirectory] does. *)
Definition attempt_message (dir raw_path : string) : string :=
  "HostInfoPosix::ComputePathRelativeToLibrary() attempting to derive the "
  ++ c_str dir ++ " path from this path: " ++ c_str raw_path.

Definition derived_message (raw_path : string) : string :=
  "Host::ComputePathRelativeToLibrary() derived the bin path as: "
  ++ c_str raw_path.

Definition bail_message : string :=
  "Host::ComputePathRelativeToLibrary() failed to find /lib/liblldb "
  ++ "within the shared lib path, bailing on bin path construction".

(** ** The compilation unit *)

Section HostInfoPosix.

Variable build : Build.
Variable os : Host.

(** *** The libc calls and collaborators the file uses *)

Definition gethostname : Sys (Z * string) :=
  emit call_gethostname ;; ret (os_gethostname os).

Definition gethostbyname (name : string) : Sys (option hostent) :=
  emit (call_gethostbyname name) ;; ret (os_gethostbyname os name).

Definition getpwuid (uid : id_t) : Sys (option passwd) :=
  emit (call_getpwuid uid) ;; ret (os_getpwuid os uid).

Definition getpwuid_r (uid : id_t) : Sys (Z * option passwd) :=
  emit (call_getpwuid_r uid) ;; ret (os_getpwuid_r os uid).

Definition getgrgid_r (gid : id_t) : Sys (Z * option group) :=
  emit (call_getgrgid_r gid) ;; ret (os_getgrgid_r os gid).

Definition getgrgid (gid : id_t) : Sys (option group) :=
  emit (call_getgrgid gid) ;; ret (os_getgrgid os gid).

(** [getenv], as the C library searches [environ]: nothing is found for
    the empty name; otherwise the first entry that starts with the name
    followed by [=] answers, with the text after that [=]. *)
Fixpoint search_env (key : string) (env : list string) : option string :=
  match env with
  | [] => None
  | entry :: env' =>
      match strip_prefix key entry with
      | Some v => Some v
      | None => search_env key env'
      end
  end.

Definition lookup_env (name : string) (env : list string) : option string :=
  if name =? "" then None else search_env (name ++ "=") env.

Definition getenv (name : string) : Sys (option string) :=
  emit (call_getenv name) ;; ret (lookup_env name (os_environ os)).

(** [GetLogIfAllCategoriesSet(LIBLLDB_LOG_HOST)]: whether a logger of the
    host category is configured. *)
Definition GetLogIfAllCategoriesSet_HOST : bool := os_host_log os.

(** [if (log) log->Printf(...)] *)
Definition Printf (log : bool) (message : string) : Sys unit :=
  if log then emit (log_Printf message) else ret tt.

Definition GetShlibDir : FileSpec := os_GetShlibDir os.

(** *** [HostInfoPosix::GetHostname] *)

Definition GetHostname (s : string) : Sys (bool * string) :=
  '(rc, hostname) <- gethostname ;;
  if (rc =? 0)%Z then
    h <- gethostbyname hostname ;;
    match h with
    | Some h => ret (true, h_name h)
    | None => ret (true, hostname)
    end
  else ret (false, s).

(** *** [PosixUserIDResolver] *)

Definition DoGetUserName (uid : id_t) : Sys (option string) :=
  if USE_GETPWUID build then
    user_info_ptr <- getpwuid uid ;;
    match user_info_ptr with
    | Some user_info => ret (Some (pw_name user_info))
    | None => ret None
    end
  else
    '(rc, user_info_ptr) <- getpwuid_r uid ;;
    match (rc =? 0)%Z, user_info_ptr with
    | true, Some user_info => ret (Some (pw_name user_info))
    | _, _ => ret None
    end.

Definition DoGetGroupName (gid : id_t) : Sys (option string) :=
  if negb (__ANDROID__ build) then
    '(rc, group_info_ptr) <- getgrgid_r gid ;;
    if (rc =? 0)%Z then
      match group_info_ptr with
      | Some group_info => ret (Some (gr_name group_info))
      | None => ret None
      end
    else
      group_info_ptr <- getgrgid gid ;;
      match group_info_ptr with
      | Some group_info => ret (Some (gr_name group_info))
      | None => ret None
      end
  else
    (if NDEBUG build then ret tt
     else assert_fail "getgrgid_r() not supported on Android") ;;
    ret None.

(** *** Path derivation *)

Definition ComputePathRelativeToLibrary (file_spec : FileSpec) (dir : string)
    : Sys (bool * FileSpec) :=
  let log := GetLogIfAllCategoriesSet_HOST in
  let lldb_file_spec := GetShlibDir in
  if negb (FileSpecOps.to_bool lldb_file_spec) then ret (false, file_spec)
  else
    let raw_path := FileSpecOps.GetPath lldb_file_spec in
    let parent_path := path.parent_path raw_path in
    Printf log (attempt_message dir raw_path) ;;
    raw_path <-
      (if negb (parent_path =? "") then
         let raw_path := parent_path ++ dir in
         Printf log (derived_message raw_path) ;;
         ret raw_path
       else
         Printf log bail_message ;;
         ret raw_path) ;;
    let file_spec :=
      FileSpecOps.set_directory file_spec (ConstString.SetString raw_path) in
    ret (ConstString.to_bool (m_directory file_spec), file_spec).

Definition ComputeSupportExeDirectory (file_spec : FileSpec)
    : Sys (bool * FileSpec) :=
  ComputePathRelativeToLibrary file_spec "/bin".

Definition ComputeHeaderDirectory (file_spec : FileSpec)
    : Sys (bool * FileSpec) :=
  let temp_file := FileSpecOps.of_path "/opt/local/include/lldb" in
  let file_spec :=
    FileSpecOps.set_directory file_spec
      (ConstString.SetCString (c_str (FileSpecOps.GetPath temp_file))) in
  ret (true, file_spec).

(** *** [HostInfoPosix::GetEnvironmentVar] *)

Definition GetEnvironmentVar (var_name : string) (var : string)
    : Sys (bool * string) :=
  pvar <- getenv (c_str var_name) ;;
  match pvar with
  | Some pvar => ret (true, pvar)
  | None => ret (false, var)
  end.

End HostInfoPosix.

(** ** Sample hosts *)

(** A build for a conventional POSIX host, and one for an old Android. *)
Definition posix_build : Build := mkBuild false None false.
Definition android_build : Build := mkBuild true (Some 19%Z) false.

(** A host whose user and group databases know only [root], whose reentrant
    group lookup is broken for gid 20, and whose debugger library sits in
    [/opt/llvm/lib/x86_64]. *)
Definition sample_host : Host := {|
  os_gethostname := (0%Z, "devbox");
  os_gethostbyname := fun name =>
    if name =? "devbox" then Some {| h_name := "devbox.example.org" |}
    else None;
  os_getpwuid := fun uid =>
    if (uid =? 0)%Z then Some {| pw_name := "root" |} else None;
  os_getpwuid_r := fun uid =>
    if (uid =? 0)%Z then (0%Z, Some {| pw_name := "root" |}) else (0%Z, None);
  os_getgrgid_r := fun gid =>
    if (gid =? 0)%Z then (0%Z, Some {| gr_name := "root" |})
    else if (gid =? 20)%Z then (34%Z, None)
    else (0%Z, None);
  os_getgrgid := fun gid =>
    if (gid =? 0)%Z then Some {| gr_name := "root" |}
    else if (gid =? 20)%Z then Some {| gr_name := "staff" |}
    else None;
  os_environ := ["HOME=/root"; "TEST_VAR=hello"];
  os_GetShlibDir := mkFileSpec "/opt/llvm/lib/x86_64" "";
  os_host_log := true
|}.

(** The same host with the debugger library somewhere else. *)
Definition with_shlib_dir (os : Host) (dir : FileSpec) : Host := {|
  os_gethostname := os_gethostname os;
  os_gethostbyname := os_gethostbyname os;
  os_getpwuid := os_getpwuid os;
  os_getpwuid_r := os_getpwuid_r os;
  os_getgrgid_r := os_getgrgid_r os;
  os_getgrgid := os_getgrgid os;
  os_environ := os_environ os;
  os_GetShlibDir := dir;
  os_host_log := os_host_log os
|}.

(** The same host with another answer of [gethostname]. *)
Definition with_gethostname (os : Host) (answer : Z * string) : Host := {|
  os_gethostname := answer;
  os_gethostbyname := os_gethostbyname os;
  os_getpwuid := os_getpwuid os;
  os_getpwuid_r := os_getpwuid_r os;
  os_getgrgid_r := os_getgrgid_r os;
  os_getgrgid := os_getgrgid os;
  os_environ := os_environ os;
  os_GetShlibDir := os_GetShlibDir os;
  os_host_log := os_host_log os
|}.

(** An Android build with assertions compiled out. *)
Definition android_release_build : Build := mkBuild true (Some 19%Z) true.

(** No character of [s] is a separator: [s] is a single path segment. *)
Fixpoint no_separator (s : string) : bool :=
  match s with
  | EmptyString => true
  | String c s' => negb (path.is_separator c) && no_separator s'
  end.

(** [prefix/segment]: a path with [segment] as its last segment. *)
Definition join_segment (prefix segment : string) : string :=
  prefix ++ "/" ++ segment.

(** ** What the claims speak about *)




(** A name with a NUL character inside, as a [std::string] can hold it. *)
Definition nul_name : string := "TEST_VAR" ++ String Ascii.zero "junk".

(** ** Auxiliary facts *)

Lemma string_eqb_empty_false (s : string) : s <> "" -> (s =? "") = false.
Proof. intro H. apply String.eqb_neq. exact H. Qed.

Lemma append_empty_l (s t : string) : s ++ t = "" -> s = "".
Proof. destruct s; simpl; [reflexivity | discriminate]. Qed.

Lemma ConstString_to_bool_true (s : string) :
  ConstString.to_bool s = true <-> s <> "".
Proof.
  unfold ConstString.to_bool. rewrite negb_true_iff. apply String.eqb_neq.
Qed.

(** A [FileSpec] that converts to [true] has a non-empty path. *)
Lemma GetPath_nonempty (f : FileSpec) :
  FileSpecOps.to_bool f = true -> FileSpecOps.GetPath f <> "".
Proof.
  destruct f as [d n]. unfold FileSpecOps.to_bool, FileSpecOps.GetPath. simpl.
  intros H E. apply append_empty_l in E as Hd. subst d. simpl in *.
  rewrite orb_false_r in H. apply ConstString_to_bool_true in H. auto.
Qed.

(** Conversely, a non-empty path comes from a [FileSpec] that converts to
    [true]. *)
Lemma to_bool_of_GetPath (f : FileSpec) :
  FileSpecOps.GetPath f <> "" -> FileSpecOps.to_bool f = true.
Proof.
  destruct f as [d n]. unfold FileSpecOps.to_bool, FileSpecOps.GetPath. simpl.
  intro H. destruct d; [ destruct n; [ now elim H | reflexivity ] | ].
  apply orb_true_r.
Qed.









(** ** The definitions at work *)

Example parent_path_of_library_dir :
  path.parent_path "/opt/llvm/lib/x86_64" = "/opt/llvm/lib".
Proof. reflexivity. Qed.

Example parent_path_of_root : path.parent_path "/" = "".
Proof. reflexivity. Qed.

Example parent_path_of_single_segment : path.parent_path "lib" = "".
Proof. reflexivity. Qed.

Example parent_path_below_root : path.parent_path "/lib" = "/".
Proof. reflexivity. Qed.

Example parent_path_trailing_separator : path.parent_path "/usr/lib/" = "/usr/lib".
Proof. reflexivity. Qed.

Example of_path_header_directory :
  FileSpecOps.of_path "/opt/local/include/lldb"
  = mkFileSpec "/opt/local/include" "lldb".
Proof. reflexivity. Qed.

Example GetPath_joins_components :
  FileSpecOps.GetPath (mkFileSpec "/opt/local/include" "lldb")
  = "/opt/local/include/lldb".
Proof. reflexivity. Qed.

Example GetHostname_canonical :
  GetHostname sample_host "" =
    (Ok (true, "devbox.example.org"),
     [call_gethostname; call_gethostbyname "devbox"]).
Proof. reflexivity. Qed.

Example c_str_stops_at_NUL : c_str nul_name = "TEST_VAR".
Proof. reflexivity. Qed.

Example lookup_env_empty_name : lookup_env "" ["=orphan"; "A=1"] = None.
Proof. reflexivity. Qed.

Example lookup_env_first_entry : lookup_env "A" ["AB=0"; "A=1"; "A=2"] = Some "1".
Proof. reflexivity. Qed.

Example lookup_env_name_with_equals : lookup_env "A=B" ["A=B=C"] = Some "C".
Proof. reflexivity. Qed.

Example attempt_message_NUL_in_suffix :
  attempt_message ("/bin" ++ String Ascii.zero "x") "/usr/lib"
  = attempt_message "/bin" "/usr/lib".
Proof. reflexivity. Qed.

Example GetEnvironmentVar_TEST_VAR :
  value (GetEnvironmentVar sample_host "TEST_VAR" "") = Ok (true, "hello").
Proof. reflexivity. Qed.

Example DoGetUserName_android :
  DoGetUserName android_build sample_host 0%Z
  = (Ok (Some "root"), [call_getpwuid 0%Z]).
Proof. reflexivity. Qed.

Example DoGetGroupName_android :
  DoGetGroupName android_build sample_host 0%Z
  = (AssertionFailed "getgrgid_r() not supported on Android", []).
Proof. reflexivity. Qed.

(** ** Path derivation *)

(** The branch taken when the library directory has no parent. *)
Lemma ComputePathRelativeToLibrary_else
    (os : Host) (file_spec : FileSpec) (dir : string) :
  let raw_path := FileSpecOps.GetPath (os_GetShlibDir os) in
  FileSpecOps.to_bool (os_GetShlibDir os) = true ->
  path.parent_path raw_path = "" ->
  ComputePathRelativeToLibrary os file_spec dir =
    (Ok (ConstString.to_bool raw_path,
         FileSpecOps.set_directory file_spec raw_path),
     if os_host_log os
     then [log_Printf (attempt_message dir raw_path); log_Printf bail_message]
     else []).
Proof.
  intros raw_path Hs Hp. unfold ComputePathRelativeToLibrary, GetShlibDir,
    GetLogIfAllCategoriesSet_HOST, Printf.
  rewrite Hs. simpl negb. cbv iota. fold raw_path. rewrite Hp.
  destruct (os_host_log os); reflexivity.
Qed.

(** The branch taken when the library directory has a parent. *)
Lemma ComputePathRelativeToLibrary_then
    (os : Host) (file_spec : FileSpec) (dir : string) :
  let raw_path := FileSpecOps.GetPath (os_GetShlibDir os) in
  FileSpecOps.to_bool (os_GetShlibDir os) = true ->
  path.parent_path raw_path <> "" ->
  ComputePathRelativeToLibrary os file_spec dir =
    (Ok (ConstString.to_bool (path.parent_path raw_path ++ dir),
         FileSpecOps.set_directory file_spec (path.parent_path raw_path ++ dir)),
     if os_host_log os
     then [log_Printf (attempt_message dir raw_path);
           log_Printf (derived_message (path.parent_path raw_path ++ dir))]
     else []).
Proof.
  intros raw_path Hs Hp. unfold ComputePathRelativeToLibrary, GetShlibDir,
    GetLogIfAllCategoriesSet_HOST, Printf.
  rewrite Hs. simpl negb. cbv iota. fold raw_path.
  rewrite (string_eqb_empty_false _ Hp).
  destruct (os_host_log os); reflexivity.
Qed.

(** C1, as the code has it: when the shared-library directory is present but
    its textual parent is empty, [ComputePathRelativeToLibrary] writes the
    path of the shared-library directory itself into the output's directory
    component, leaves the filename alone and returns success; with a host
    logger configured it logs the attempt and then the bailing message. *)
Theorem ComputePathRelativeToLibrary_empty_parent
    (os : Host) (file_spec : FileSpec) (dir : string) :
  FileSpecOps.to_bool (os_GetShlibDir os) = true ->
  path.parent_path (FileSpecOps.GetPath (os_GetShlibDir os)) = "" ->
  ComputePathRelativeToLibrary os file_spec dir =
    (Ok (true,
         mkFileSpec (FileSpecOps.GetPath (os_GetShlibDir os))
                    (m_filename file_spec)),
     if os_host_log os
     then [log_Printf
             (attempt_message dir (FileSpecOps.GetPath (os_GetShlibDir os)));
           log_Printf bail_message]
     else []).
Proof.
  intros Hs Hp.
  rewrite (ComputePathRelativeToLibrary_else os file_spec dir Hs Hp).
  apply GetPath_nonempty, ConstString_to_bool_true in Hs. rewrite Hs.
  reflexivity.
Qed.

(** The library in the root directory: the output directory becomes [/]. *)
Lemma ComputePathRelativeToLibrary_empty_parent_witness :
  value (ComputePathRelativeToLibrary
           (with_shlib_dir sample_host (mkFileSpec "/" ""))
           (mkFileSpec "" "lldb-server") "/bin")
  = Ok (true, mkFileSpec "/" "lldb-server").
Proof.
  rewrite (ComputePathRelativeToLibrary_empty_parent
             (with_shlib_dir sample_host (mkFileSpec "/" ""))
             (mkFileSpec "" "lldb-server") "/bin");
    reflexivity.
Defined.

(** C1 as stated fails for the library in the root directory: the parent of
    [/] is empty, yet the call succeeds and the output directory is [/], not
    empty. *)
Lemma ComputePathRelativeToLibrary_root_counterexample :
  let os := with_shlib_dir sample_host (mkFileSpec "/" "") in
  let r := value (ComputePathRelativeToLibrary os (mkFileSpec "" "") "/bin") in
  FileSpecOps.to_bool (os_GetShlibDir os) = true /\
  path.parent_path (FileSpecOps.GetPath (os_GetShlibDir os)) = "" /\
  r = Ok (true, mkFileSpec "/" "") /\
  ~ (exists out, r = Ok (false, out) /\ m_directory out = "").
Proof.
  cbv zeta. repeat split; try reflexivity.
  intros (out & H & _). vm_compute in H. discriminate H.
Qed.

(** C2: when the shared-library directory is present and its textual parent
    is non-empty, the output's directory becomes the parent followed by the
    suffix, the filename is kept, and the call succeeds exactly when that
    directory string is non-empty.  In particular, for a shared-library
    directory whose path is [/opt/llvm/lib/x86_64],
    [ComputeSupportExeDirectory] sets the directory to [/opt/llvm/lib/bin]
    and returns [true]. *)
Theorem ComputePathRelativeToLibrary_sibling :
  (forall (os : Host) (file_spec : FileSpec) (dir : string),
      FileSpecOps.to_bool (os_GetShlibDir os) = true ->
      path.parent_path (FileSpecOps.GetPath (os_GetShlibDir os)) <> "" ->
      exists ok out,
        value (ComputePathRelativeToLibrary os file_spec dir) = Ok (ok, out) /\
        m_directory out =
          path.parent_path (FileSpecOps.GetPath (os_GetShlibDir os)) ++ dir /\
        m_filename out = m_filename file_spec /\
        (ok = true <-> m_directory out <> "")) /\
  (forall (os : Host) (file_spec : FileSpec),
      FileSpecOps.GetPath (os_GetShlibDir os) = "/opt/llvm/lib/x86_64" ->
      value (ComputeSupportExeDirectory os file_spec) =
        Ok (true, mkFileSpec "/opt/llvm/lib/bin" (m_filename file_spec))).
Proof.
  split.
  - intros os file_spec dir Hs Hp.
    rewrite (ComputePathRelativeToLibrary_then os file_spec dir Hs Hp).
    do 2 eexists. split; [reflexivity |]. simpl.
    repeat split; try apply ConstString_to_bool_true.
  - intros os file_spec E.
    assert (Hs : FileSpecOps.to_bool (os_GetShlibDir os) = true).
    { apply to_bool_of_GetPath. rewrite E. discriminate. }
    assert (Hp : path.parent_path (FileSpecOps.GetPath (os_GetShlibDir os))
                 <> "").
    { rewrite E. vm_compute. discriminate. }
    unfold ComputeSupportExeDirectory.
    rewrite (ComputePathRelativeToLibrary_then os file_spec "/bin" Hs Hp).
    rewrite E. reflexivity.
Qed.

(** The library under [/opt/llvm/lib/x86_64], on the sample host. *)
Lemma ComputePathRelativeToLibrary_sibling_witness :
  value (ComputeSupportExeDirectory sample_host (mkFileSpec "" ""))
  = Ok (true, mkFileSpec "/opt/llvm/lib/bin" "").
Proof.
  apply (proj2 ComputePathRelativeToLibrary_sibling sample_host
           (mkFileSpec "" "")).
  reflexivity.
Defined.

(** C3: when the shared-library directory cannot be obtained,
    [ComputePathRelativeToLibrary] returns failure, hands the output path
    back as it received it, and logs nothing. *)
Theorem ComputePathRelativeToLibrary_no_shlib
    (os : Host) (file_spec : FileSpec) (dir : string) :
  FileSpecOps.to_bool (os_GetShlibDir os) = false ->
  ComputePathRelativeToLibrary os file_spec dir = (Ok (false, file_spec), []).
Proof.
  intro Hs. unfold ComputePathRelativeToLibrary, GetShlibDir.
  rewrite Hs. reflexivity.
Qed.

(** The empty shared-library path: the output keeps both components. *)
Lemma ComputePathRelativeToLibrary_no_shlib_witness :
  ComputePathRelativeToLibrary
    (with_shlib_dir sample_host (mkFileSpec "" ""))
    (mkFileSpec "/usr/lib" "lldb") "/bin"
  = (Ok (false, mkFileSpec "/usr/lib" "lldb"), []).
Proof.
  apply (ComputePathRelativeToLibrary_no_shlib
           (with_shlib_dir sample_host (mkFileSpec "" ""))
           (mkFileSpec "/usr/lib" "lldb") "/bin").
  reflexivity.
Defined.

(** C8: whatever the output path held, [ComputeHeaderDirectory] sets its
    directory to the literal [/opt/local/include/lldb], keeps its filename,
    returns success and calls nothing; run again on its own output it gives
    the same output again. *)
Theorem ComputeHeaderDirectory_fixed (file_spec : FileSpec) :
  exists out,
    ComputeHeaderDirectory file_spec = (Ok (true, out), []) /\
    m_directory out = "/opt/local/include/lldb" /\
    m_filename out = m_filename file_spec /\
    ComputeHeaderDirectory out = (Ok (true, out), []).
Proof.
  exists (mkFileSpec "/opt/local/include/lldb" (m_filename file_spec)).
  repeat split.
Qed.

(** ** The environment *)






(** ** The host name *)

(** C5: [GetHostname] fails exactly when [gethostname] does.  When
    [gethostname] succeeds it returns success, with the canonical name of the
    host entry when [gethostbyname] finds one and with the node name itself
    otherwise. *)
Theorem GetHostname_result (os : Host) (s : string) :
  exists ok out,
    value (GetHostname os s) = Ok (ok, out) /\
    (ok = false <-> fst (os_gethostname os) <> 0%Z) /\
    (fst (os_gethostname os) = 0%Z ->
     ok = true /\
     (forall h, os_gethostbyname os (snd (os_gethostname os)) = Some h ->
                out = h_name h) /\
     (os_gethostbyname os (snd (os_gethostname os)) = None ->
      out = snd (os_gethostname os))).
Proof.
  unfold GetHostname, gethostname, gethostbyname. simpl.
  destruct (os_gethostname os) as [rc hostname]. simpl.
  destruct (Z.eqb_spec rc 0) as [-> | Hrc].
  - destruct (os_gethostbyname os hostname) as [h |] eqn:E; simpl;
      do 2 eexists; (split; [reflexivity |]);
      (split; [split; [discriminate | intro H; now elim H] |]);
      intros _; repeat split; congruence.
  - exists false, s. repeat split; auto; contradiction.
Qed.

(** ** The user and group name resolver *)

Section Resolver.

Variable build : Build.
Variable os : Host.

(** The user lookup of a build with [getpwuid_r], by the answer it gets. *)
Lemma DoGetUserName_reentrant (uid : id_t) :
  USE_GETPWUID build = false ->
  DoGetUserName build os uid =
    (Ok match os_getpwuid_r os uid with
        | (0%Z, Some user_info) => Some (pw_name user_info)
        | _ => None
        end,
     [call_getpwuid_r uid]).
Proof.
  intro Hb. unfold DoGetUserName, getpwuid_r. rewrite Hb. simpl.
  destruct (os_getpwuid_r os uid) as [rc [user_info |]];
    destruct (Z.eqb_spec rc 0) as [-> | Hrc]; try reflexivity;
    destruct rc; try reflexivity; contradiction.
Qed.

(** The group lookup of a build that is not for Android, by the answers it
    gets. *)
Lemma DoGetGroupName_posix (gid : id_t) :
  __ANDROID__ build = false ->
  DoGetGroupName build os gid =
    if (fst (os_getgrgid_r os gid) =? 0)%Z
    then (Ok (option_map gr_name (snd (os_getgrgid_r os gid))),
          [call_getgrgid_r gid])
    else (Ok (option_map gr_name (os_getgrgid os gid)),
          [call_getgrgid_r gid; call_getgrgid gid]).
Proof.
  intro Hb. unfold DoGetGroupName, getgrgid_r, getgrgid. rewrite Hb. simpl.
  destruct (os_getgrgid_r os gid) as [rc group_info_ptr]. simpl.
  destruct (rc =? 0)%Z.
  - destruct group_info_ptr; reflexivity.
  - destruct (os_getgrgid os gid); reflexivity.
Qed.

End Resolver.

(** C7: on a build with the reentrant lookup, [DoGetUserName] calls
    [getpwuid_r] once; a zero return code together with a non-null result is
    success and yields the name field; every other answer yields the empty
    optional, never a failure.  In particular a lookup that leaves the result
    pointer null (no such uid) yields the empty optional. *)
Theorem DoGetUserName_result (build : Build) (os : Host) (uid : id_t) :
  USE_GETPWUID build = false ->
  trace (DoGetUserName build os uid) = [call_getpwuid_r uid] /\
  (forall user_info,
      os_getpwuid_r os uid = (0%Z, Some user_info) ->
      value (DoGetUserName build os uid) = Ok (Some (pw_name user_info))) /\
  ((forall user_info, os_getpwuid_r os uid <> (0%Z, Some user_info)) ->
   value (DoGetUserName build os uid) = Ok None) /\
  (snd (os_getpwuid_r os uid) = None ->
   value (DoGetUserName build os uid) = Ok None) /\
  (forall message,
      value (DoGetUserName build os uid) <> AssertionFailed message).
Proof.
  intro Hb. rewrite (DoGetUserName_reentrant build os uid Hb).
  unfold value, trace. simpl.
  split; [reflexivity |]. split; [| split; [| split]].
  - intros user_info ->. reflexivity.
  - intro H. destruct (os_getpwuid_r os uid) as [rc [user_info |]];
      destruct rc; try reflexivity. now elim (H user_info).
  - destruct (os_getpwuid_r os uid) as [rc p]. simpl. intros ->.
    destruct rc; reflexivity.
  - discriminate.
Qed.

(** The root user is found; uid [0xFFFFFFFE] is not. *)
Lemma DoGetUserName_result_witness :
  value (DoGetUserName posix_build sample_host 0%Z) = Ok (Some "root") /\
  value (DoGetUserName posix_build sample_host 4294967294%Z) = Ok None.
Proof.
  split.
  - apply (proj1 (proj2 (DoGetUserName_result posix_build sample_host 0%Z
                           eq_refl)) {| pw_name := "root" |}).
    reflexivity.
  - apply (proj1 (proj2 (proj2 (proj2
             (DoGetUserName_result posix_build sample_host 4294967294%Z
                eq_refl))))).
    reflexivity.
Defined.

(** C6: on a build with the group lookups, [DoGetGroupName] returns the
    group name when [getgrgid_r] returns zero with a non-null result, calling
    nothing else; when [getgrgid_r] returns non-zero it calls [getgrgid],
    once, and returns the name that call finds; in every remaining case it
    returns the empty optional. *)
Theorem DoGetGroupName_result (build : Build) (os : Host) (gid : id_t) :
  __ANDROID__ build = false ->
  (forall group_info,
      os_getgrgid_r os gid = (0%Z, Some group_info) ->
      DoGetGroupName build os gid =
        (Ok (Some (gr_name group_info)), [call_getgrgid_r gid])) /\
  (fst (os_getgrgid_r os gid) <> 0%Z ->
   trace (DoGetGroupName build os gid) =
     [call_getgrgid_r gid; call_getgrgid gid] /\
   forall group_info,
     os_getgrgid os gid = Some group_info ->
     value (DoGetGroupName build os gid) = Ok (Some (gr_name group_info))) /\
  (~ (exists group_info, os_getgrgid_r os gid = (0%Z, Some group_info)) ->
   ~ (fst (os_getgrgid_r os gid) <> 0%Z /\
      exists group_info, os_getgrgid os gid = Some group_info) ->
   value (DoGetGroupName build os gid) = Ok None).
Proof.
  intro Hb. rewrite (DoGetGroupName_posix build os gid Hb).
  destruct (os_getgrgid_r os gid) as [rc group_info_ptr]. simpl.
  destruct (Z.eqb_spec rc 0) as [-> | Hrc].
  - split; [| split].
    + intros group_info [= ->]. reflexivity.
    + intro H. now elim H.
    + intros H _. destruct group_info_ptr as [group_info |]; [| reflexivity].
      elim H. now exists group_info.
  - split; [| split].
    + intros group_info [= -> _]. now elim Hrc.
    + intros _. split; [reflexivity |]. intros group_info ->. reflexivity.
    + intros _ H. unfold value. simpl.
      destruct (os_getgrgid os gid) as [group_info |]; [| reflexivity].
      elim H. split; [exact Hrc | now exists group_info].
Qed.

(** Group 0 is answered by [getgrgid_r]; for group 20 [getgrgid_r] fails and
    [getgrgid] is asked, once. *)
Lemma DoGetGroupName_result_witness :
  DoGetGroupName posix_build sample_host 0%Z
    = (Ok (Some "root"), [call_getgrgid_r 0%Z]) /\
  trace (DoGetGroupName posix_build sample_host 20%Z)
    = [call_getgrgid_r 20%Z; call_getgrgid 20%Z] /\
  value (DoGetGroupName posix_build sample_host 20%Z) = Ok (Some "staff").
Proof.
  split.
  - apply (proj1 (DoGetGroupName_result posix_build sample_host 0%Z eq_refl)
             {| gr_name := "root" |}).
    reflexivity.
  - destruct (proj1 (proj2 (DoGetGroupName_result posix_build sample_host 20%Z
                              eq_refl))) as [Ht Hv].
    + discriminate.
    + split; [exact Ht |].
      apply (Hv {| gr_name := "staff" |}). reflexivity.
Defined.

(** C10: on a build with the group lookups, when [getgrgid_r] returns zero
    with a null result, [DoGetGroupName] returns the empty optional and has
    called [getgrgid_r] only; [getgrgid] is called exactly when [getgrgid_r]
    returned a non-zero code. *)
Theorem DoGetGroupName_fallback (build : Build) (os : Host) (gid : id_t) :
  __ANDROID__ build = false ->
  (os_getgrgid_r os gid = (0%Z, None) ->
   DoGetGroupName build os gid = (Ok None, [call_getgrgid_r gid])) /\
  (forall gid',
      In (call_getgrgid gid') (trace (DoGetGroupName build os gid)) <->
      gid' = gid /\ fst (os_getgrgid_r os gid) <> 0%Z).
Proof.
  intro Hb. rewrite (DoGetGroupName_posix build os gid Hb).
  destruct (os_getgrgid_r os gid) as [rc group_info_ptr]. simpl.
  destruct (Z.eqb_spec rc 0) as [-> | Hrc].
  - split.
    + intros [= ->]. reflexivity.
    + intro gid'. unfold trace. simpl. split.
      * intros [H | []]. discriminate H.
      * intros [_ H]. now elim H.
  - split.
    + intros [= -> _]. now elim Hrc.
    + intro gid'. unfold trace. simpl. split.
      * intros [H | [H | []]]; [discriminate H |].
        inversion H. split; [reflexivity | exact Hrc].
      * intros [-> _]. right. now left.
Qed.

(** Group 7 is unknown to the sample host: [getgrgid_r] says so and
    [getgrgid] is not asked. *)
Lemma DoGetGroupName_fallback_witness :
  DoGetGroupName posix_build sample_host 7%Z = (Ok None, [call_getgrgid_r 7%Z]).
Proof.
  apply (proj1 (DoGetGroupName_fallback posix_build sample_host 7%Z eq_refl)).
  reflexivity.
Defined.

(** ** Further properties of the path derivation *)

(** [ComputePathRelativeToLibrary] on every input: it fails without a
    shared-library directory and otherwise writes either the parent followed
    by the suffix or, without a parent, the library path itself. *)
Lemma ComputePathRelativeToLibrary_cases
    (os : Host) (file_spec : FileSpec) (dir : string) :
  let raw_path := FileSpecOps.GetPath (os_GetShlibDir os) in
  let parent := path.parent_path raw_path in
  ComputePathRelativeToLibrary os file_spec dir =
    if FileSpecOps.to_bool (os_GetShlibDir os) then
      (Ok (true,
           mkFileSpec (if parent =? "" then raw_path else parent ++ dir)
                      (m_filename file_spec)),
       if os_host_log os
       then [log_Printf (attempt_message dir raw_path);
             log_Printf (if parent =? "" then bail_message
                         else derived_message (parent ++ dir))]
       else [])
    else (Ok (false, file_spec), []).
Proof.
  intros raw_path parent.
  destruct (FileSpecOps.to_bool (os_GetShlibDir os)) eqn:Hs.
  - destruct (String.eqb_spec parent "") as [Hp | Hp].
    + rewrite (ComputePathRelativeToLibrary_else os file_spec dir Hs Hp).
      fold raw_path.
      apply GetPath_nonempty, ConstString_to_bool_true in Hs.
      fold raw_path in Hs. rewrite Hs. reflexivity.
    + rewrite (ComputePathRelativeToLibrary_then os file_spec dir Hs Hp).
      fold raw_path parent.
      assert (Hd : ConstString.to_bool (parent ++ dir) = true).
      { apply ConstString_to_bool_true. intro E.
        apply append_empty_l in E. contradiction. }
      rewrite Hd. reflexivity.
  - unfold ComputePathRelativeToLibrary, GetShlibDir. rewrite Hs. reflexivity.
Qed.

(** X1: [ComputePathRelativeToLibrary] succeeds exactly when the host-info
    base has a shared-library directory, whatever that directory and the
    suffix are.  On success the output directory is non-empty; on failure the
    output is the input. *)
Theorem ComputePathRelativeToLibrary_success_iff
    (os : Host) (file_spec : FileSpec) (dir : string) :
  exists ok out,
    value (ComputePathRelativeToLibrary os file_spec dir) = Ok (ok, out) /\
    (ok = true <-> FileSpecOps.to_bool (os_GetShlibDir os) = true) /\
    (ok = true -> m_directory out <> "") /\
    (ok = false -> out = file_spec).
Proof.
  rewrite ComputePathRelativeToLibrary_cases.
  destruct (FileSpecOps.to_bool (os_GetShlibDir os)) eqn:Hs.
  - do 2 eexists. split; [reflexivity |]. simpl.
    split; [tauto |]. split; [| discriminate]. intros _.
    destruct (String.eqb_spec
                (path.parent_path (FileSpecOps.GetPath (os_GetShlibDir os)))
                "") as [Hp | Hp].
    + apply GetPath_nonempty. exact Hs.
    + intro E. apply append_empty_l in E. contradiction.
  - do 2 eexists. split; [reflexivity |].
    split; [split; discriminate |]. split; [discriminate | reflexivity].
Qed.

(** X2: [ComputePathRelativeToLibrary] never touches the filename of the
    output path, and the directory it writes does not depend on what the
    output path held before. *)
Theorem ComputePathRelativeToLibrary_frame
    (os : Host) (file_spec other : FileSpec) (dir : string) :
  exists ok out out',
    value (ComputePathRelativeToLibrary os file_spec dir) = Ok (ok, out) /\
    value (ComputePathRelativeToLibrary os other dir) = Ok (ok, out') /\
    m_filename out = m_filename file_spec /\
    m_filename out' = m_filename other /\
    (ok = true -> m_directory out = m_directory out').
Proof.
  rewrite !ComputePathRelativeToLibrary_cases.
  destruct (FileSpecOps.to_bool (os_GetShlibDir os)).
  - do 3 eexists. repeat split.
  - do 3 eexists. repeat split. discriminate.
Qed.

(** X3: running [ComputePathRelativeToLibrary] again on its own output, with
    the same suffix, returns the same flag and the same output. *)
Theorem ComputePathRelativeToLibrary_idempotent
    (os : Host) (file_spec out : FileSpec) (dir : string) (ok : bool) :
  value (ComputePathRelativeToLibrary os file_spec dir) = Ok (ok, out) ->
  value (ComputePathRelativeToLibrary os out dir) = Ok (ok, out).
Proof.
  rewrite !ComputePathRelativeToLibrary_cases.
  destruct (FileSpecOps.to_bool (os_GetShlibDir os)); unfold value; simpl;
    intros [= <- <-]; reflexivity.
Qed.

Lemma ComputePathRelativeToLibrary_idempotent_witness :
  value (ComputePathRelativeToLibrary sample_host
           (mkFileSpec "/opt/llvm/lib/libexec" "lldb-server") "/libexec")
  = Ok (true, mkFileSpec "/opt/llvm/lib/libexec" "lldb-server").
Proof.
  apply (ComputePathRelativeToLibrary_idempotent sample_host
           (mkFileSpec "" "lldb-server")).
  reflexivity.
Defined.

(** X4: what [ComputeSupportExeDirectory] prints itself when the
    shared-library directory is present.  Without a host logger it prints
    nothing.  With one it prints exactly two messages: first the attempt,
    naming the suffix [/bin] and the library path, then the derived path
    when the library path has a parent, the bailing message when it has
    none.  Each path appears as [%s] prints it, up to its first NUL. *)
Theorem ComputeSupportExeDirectory_logging (os : Host) (file_spec : FileSpec) :
  FileSpecOps.to_bool (os_GetShlibDir os) = true ->
  let raw_path := FileSpecOps.GetPath (os_GetShlibDir os) in
  let parent := path.parent_path raw_path in
  let t := trace (ComputeSupportExeDirectory os file_spec) in
  (os_host_log os = false -> t = []) /\
  (os_host_log os = true ->
   exists second,
     t = [log_Printf
            ("HostInfoPosix::ComputePathRelativeToLibrary() attempting to "
             ++ "derive the /bin path from this path: " ++ c_str raw_path);
          log_Printf second] /\
     (parent = "" /\
      second =
        "Host::ComputePathRelativeToLibrary() failed to find /lib/liblldb "
        ++ "within the shared lib path, bailing on bin path construction" \/
      parent <> "" /\
      second =
        "Host::ComputePathRelativeToLibrary() derived the bin path as: "
        ++ c_str (parent ++ "/bin"))).
Proof.
  intros Hs raw_path parent t. subst t.
  unfold ComputeSupportExeDirectory.
  rewrite ComputePathRelativeToLibrary_cases, Hs. unfold trace. simpl snd.
  fold raw_path parent.
  split; intro Hl; rewrite Hl; [reflexivity |].
  destruct (String.eqb_spec parent "") as [Hp | Hp]; eexists;
    (split; [reflexivity |]); [left | right]; split; auto.
Qed.

Lemma ComputeSupportExeDirectory_logging_witness :
  trace (ComputeSupportExeDirectory sample_host (mkFileSpec "" ""))
  = [log_Printf
       ("HostInfoPosix::ComputePathRelativeToLibrary() attempting to "
        ++ "derive the /bin path from this path: /opt/llvm/lib/x86_64");
     log_Printf
       ("Host::ComputePathRelativeToLibrary() derived the bin path as: "
        ++ "/opt/llvm/lib/bin")].
Proof.
  destruct (ComputeSupportExeDirectory_logging sample_host (mkFileSpec "" "")
              eq_refl) as [_ H].
  destruct (H eq_refl) as (second & Ht & [[Hp _] | [_ Hs]]).
  - discriminate Hp.
  - rewrite Ht, Hs. reflexivity.
Defined.

(** X5: [ComputeHeaderDirectory] overrides whatever
    [ComputePathRelativeToLibrary] derived: applied to the output of the
    latter it gives what it gives on the original path. *)
Theorem ComputeHeaderDirectory_after_ComputePathRelativeToLibrary
    (os : Host) (file_spec out : FileSpec) (dir : string) (ok : bool) :
  value (ComputePathRelativeToLibrary os file_spec dir) = Ok (ok, out) ->
  ComputeHeaderDirectory out = ComputeHeaderDirectory file_spec.
Proof.
  rewrite ComputePathRelativeToLibrary_cases.
  destruct (FileSpecOps.to_bool (os_GetShlibDir os)); unfold value; simpl;
    intros [= <- <-]; reflexivity.
Qed.

Lemma ComputeHeaderDirectory_after_ComputePathRelativeToLibrary_witness :
  ComputeHeaderDirectory (mkFileSpec "/opt/llvm/lib/bin" "lldb")
  = ComputeHeaderDirectory (mkFileSpec "/tmp" "lldb").
Proof.
  apply (ComputeHeaderDirectory_after_ComputePathRelativeToLibrary
           sample_host (mkFileSpec "/tmp" "lldb")
           (mkFileSpec "/opt/llvm/lib/bin" "lldb") "/bin" true).
  reflexivity.
Defined.

(** ** Further properties of the host name query *)

(** X6: when [gethostname] fails, [GetHostname] returns [false], hands the
    caller's string back as it came in, and does not attempt a name
    resolution. *)
Theorem GetHostname_failure (os : Host) (s : string) :
  fst (os_gethostname os) <> 0%Z ->
  GetHostname os s = (Ok (false, s), [call_gethostname]).
Proof.
  intro Hrc. unfold GetHostname, gethostname. simpl.
  destruct (os_gethostname os) as [rc hostname]. simpl in *.
  destruct (Z.eqb_spec rc 0) as [-> | _]; [now elim Hrc | reflexivity].
Qed.

Lemma GetHostname_failure_witness :
  GetHostname (with_gethostname sample_host ((-1)%Z, "")) "previous"
  = (Ok (false, "previous"), [call_gethostname]).
Proof.
  apply (GetHostname_failure (with_gethostname sample_host ((-1)%Z, ""))).
  discriminate.
Defined.

(** X7: when [gethostname] succeeds, [GetHostname] resolves the node name it
    was given, once and after the query, and what it returns does not depend
    on what the caller's string held: it is the canonical name or the node
    name. *)
Theorem GetHostname_success (os : Host) (s : string) :
  fst (os_gethostname os) = 0%Z ->
  let hostname := snd (os_gethostname os) in
  exists out,
    GetHostname os s =
      (Ok (true, out), [call_gethostname; call_gethostbyname hostname]) /\
    (forall s', GetHostname os s' = GetHostname os s) /\
    (out = hostname \/
     exists h, os_gethostbyname os hostname = Some h /\ out = h_name h).
Proof.
  intros Hrc hostname. subst hostname.
  unfold GetHostname, gethostname, gethostbyname. simpl.
  destruct (os_gethostname os) as [rc hostname]. simpl in *. subst rc. simpl.
  destruct (os_gethostbyname os hostname) as [h |] eqn:E; simpl;
    eexists; (split; [reflexivity |]); (split; [reflexivity |]).
  - right. now exists h.
  - now left.
Qed.

Lemma GetHostname_success_witness :
  GetHostname (with_gethostname sample_host (0%Z, "buildbot")) "previous"
  = (Ok (true, "buildbot"),
     [call_gethostname; call_gethostbyname "buildbot"]).
Proof.
  destruct (GetHostname_success
              (with_gethostname sample_host (0%Z, "buildbot")) "previous"
              eq_refl) as (out & E & _ & [-> | (h & Hh & _)]).
  - exact E.
  - discriminate Hh.
Defined.

(** ** Further properties of the resolver *)

(** X8: on a build that defines [USE_GETPWUID], [DoGetUserName] asks
    [getpwuid] once and never [getpwuid_r]; it returns a name exactly when
    that call finds an entry, and the name is the entry's. *)
Theorem DoGetUserName_getpwuid (build : Build) (os : Host) (uid : id_t) :
  USE_GETPWUID build = true ->
  trace (DoGetUserName build os uid) = [call_getpwuid uid] /\
  (forall name,
      value (DoGetUserName build os uid) = Ok (Some name) <->
      exists user_info,
        os_getpwuid os uid = Some user_info /\ pw_name user_info = name) /\
  (value (DoGetUserName build os uid) = Ok None <->
   os_getpwuid os uid = None).
Proof.
  intro Hb. unfold DoGetUserName, getpwuid. rewrite Hb. simpl.
  destruct (os_getpwuid os uid) as [user_info |]; unfold value, trace; simpl.
  - split; [reflexivity |]. split.
    + intro name. split.
      * intros [= <-]. now exists user_info.
      * intros (u & [= <-] & <-). reflexivity.
    + split; discriminate.
  - split; [reflexivity |]. split.
    + intro name. split; [discriminate | intros (u & H & _); discriminate H].
    + split; reflexivity.
Qed.

Lemma DoGetUserName_getpwuid_witness :
  trace (DoGetUserName android_build sample_host 0%Z) = [call_getpwuid 0%Z] /\
  value (DoGetUserName android_build sample_host 0%Z) = Ok (Some "root").
Proof.
  destruct (DoGetUserName_getpwuid android_build sample_host 0%Z eq_refl)
    as (Ht & Hn & _).
  split; [exact Ht |]. apply Hn.
  exists {| pw_name := "root" |}. split; reflexivity.
Defined.

(** X9: on every build [DoGetUserName] makes exactly one call, a user lookup
    for the uid it was given, and comes back with an optional name; which
    lookup it is depends on [USE_GETPWUID] alone. *)
Theorem DoGetUserName_one_lookup (build : Build) (os : Host) (uid : id_t) :
  exists name,
    DoGetUserName build os uid =
      (Ok name,
       [if USE_GETPWUID build then call_getpwuid uid
        else call_getpwuid_r uid]).
Proof.
  unfold DoGetUserName, getpwuid, getpwuid_r.
  destruct (USE_GETPWUID build); simpl.
  - destruct (os_getpwuid os uid); eexists; reflexivity.
  - destruct (os_getpwuid_r os uid) as [rc [user_info |]];
      destruct (rc =? 0)%Z; eexists; reflexivity.
Qed.

(** The group lookup of a build for Android. *)
Lemma DoGetGroupName_no_lookup (build : Build) (os : Host) (gid : id_t) :
  __ANDROID__ build = true ->
  DoGetGroupName build os gid =
    (if NDEBUG build then Ok None
     else AssertionFailed "getgrgid_r() not supported on Android",
     []).
Proof.
  intro Hb. unfold DoGetGroupName. rewrite Hb. simpl.
  destruct (NDEBUG build); reflexivity.
Qed.

(** X10: on a build for Android [DoGetGroupName] looks nothing up and never
    returns a name: it stops at the assertion, or, with assertions compiled
    out, returns the empty optional; the host and the gid play no part. *)
Theorem DoGetGroupName_android_build
    (build : Build) (os : Host) (gid : id_t) :
  __ANDROID__ build = true ->
  trace (DoGetGroupName build os gid) = [] /\
  (NDEBUG build = true -> value (DoGetGroupName build os gid) = Ok None) /\
  (NDEBUG build = false ->
   exists message,
     value (DoGetGroupName build os gid) = AssertionFailed message) /\
  (forall os' gid',
      DoGetGroupName build os' gid' = DoGetGroupName build os gid).
Proof.
  intro Hb. split; [| split; [| split]].
  - rewrite (DoGetGroupName_no_lookup build os gid Hb). reflexivity.
  - intro Hn. rewrite (DoGetGroupName_no_lookup build os gid Hb), Hn.
    reflexivity.
  - intro Hn. rewrite (DoGetGroupName_no_lookup build os gid Hb), Hn.
    eexists. reflexivity.
  - intros os' gid'. now rewrite !DoGetGroupName_no_lookup.
Qed.

Lemma DoGetGroupName_android_build_witness :
  DoGetGroupName android_release_build sample_host 0%Z = (Ok None, []).
Proof.
  destruct (DoGetGroupName_android_build android_release_build sample_host
              0%Z eq_refl) as (Ht & Hv & _).
  specialize (Hv eq_refl).
  destruct (DoGetGroupName android_release_build sample_host 0%Z) as [v t].
  unfold value, trace in *. simpl in *. now subst.
Defined.

(** X11: a name returned by [DoGetGroupName] is always the name of an entry
    one of the two lookups delivered for that gid: the entry of [getgrgid_r]
    when it returned zero, the entry of [getgrgid] when [getgrgid_r] returned
    non-zero.  An Android build never returns a name. *)
Theorem DoGetGroupName_sound
    (build : Build) (os : Host) (gid : id_t) (name : string) :
  value (DoGetGroupName build os gid) = Ok (Some name) ->
  __ANDROID__ build = false /\
  exists group_info,
    gr_name group_info = name /\
    (os_getgrgid_r os gid = (0%Z, Some group_info) \/
     fst (os_getgrgid_r os gid) <> 0%Z /\
     os_getgrgid os gid = Some group_info).
Proof.
  destruct (__ANDROID__ build) eqn:Hb.
  - rewrite (DoGetGroupName_no_lookup build os gid Hb).
    unfold value. simpl. destruct (NDEBUG build); discriminate.
  - rewrite (DoGetGroupName_posix build os gid Hb).
    destruct (os_getgrgid_r os gid) as [rc group_info_ptr]. simpl.
    destruct (Z.eqb_spec rc 0) as [-> | Hrc]; unfold value; simpl.
    + destruct group_info_ptr as [g |]; simpl; [| discriminate].
      intros [= <-]. split; [reflexivity |]. exists g. split; auto.
    + destruct (os_getgrgid os gid) as [g |]; simpl; [| discriminate].
      intros [= <-]. split; [reflexivity |]. exists g. split; auto.
Qed.

Lemma DoGetGroupName_sound_witness :
  __ANDROID__ posix_build = false /\
  exists group_info,
    gr_name group_info = "staff" /\
    (os_getgrgid_r sample_host 20%Z = (0%Z, Some group_info) \/
     fst (os_getgrgid_r sample_host 20%Z) <> 0%Z /\
     os_getgrgid sample_host 20%Z = Some group_info).
Proof.
  apply (DoGetGroupName_sound posix_build sample_host 20%Z "staff").
  reflexivity.
Defined.

(** X12: the calls of [DoGetGroupName] are group lookups for the gid it was
    given and nothing else: none on a build for Android, otherwise
    [getgrgid_r] alone or [getgrgid_r] followed by [getgrgid]. *)
Theorem DoGetGroupName_calls (build : Build) (os : Host) (gid : id_t) :
  let t := trace (DoGetGroupName build os gid) in
  (t = [] \/ t = [call_getgrgid_r gid] \/
   t = [call_getgrgid_r gid; call_getgrgid gid]) /\
  (t = [] <-> __ANDROID__ build = true).
Proof.
  cbv zeta. destruct (__ANDROID__ build) eqn:Hb.
  - rewrite (DoGetGroupName_no_lookup build os gid Hb). unfold trace. simpl.
    split; [now left | tauto].
  - rewrite (DoGetGroupName_posix build os gid Hb).
    destruct (fst (os_getgrgid_r os gid) =? 0)%Z; unfold trace; simpl;
      (split; [auto | split; discriminate]).
Qed.

(** ** Replacing the last segment of the library directory *)

Lemma string_length_append (s t : string) :
  String.length (s ++ t) = String.length s + String.length t.
Proof. induction s as [| c s IH]; simpl; [reflexivity | now rewrite IH]. Qed.

Lemma get_append_l (s t : string) (i : nat) :
  i < String.length s -> String.get i (s ++ t) = String.get i s.
Proof. intro H. symmetry. now apply append_correct1. Qed.

Lemma get_append_r (s t : string) (i : nat) :
  String.get (String.length s + i) (s ++ t) = String.get i t.
Proof. rewrite Nat.add_comm. symmetry. apply append_correct2. Qed.

Lemma substring_append_l (s t : string) :
  substring 0 (String.length s) (s ++ t) = s.
Proof. induction s as [| c s IH]; simpl; [now destruct t | now rewrite IH]. Qed.

Lemma find_last_of_eq (str : string) (from : nat) :
  path.find_last_of str from =
    if path.sep_at str from then Some from
    else match from with
         | O => None
         | S from' => path.find_last_of str from'
         end.
Proof. destruct from; reflexivity. Qed.

Lemma no_separator_sep_at (s : string) (i : nat) :
  no_separator s = true -> path.sep_at s i = false.
Proof.
  revert i. induction s as [| c s IH]; intros i H.
  - now destruct i.
  - simpl in H. apply andb_prop in H as [Hc Hs]. destruct i as [| i].
    + unfold path.sep_at. simpl. now apply negb_true_iff.
    + apply (IH i Hs).
Qed.

Section LastSegment.

Variables prefix segment : string.
Hypothesis prefix_nonempty : prefix <> "".
Hypothesis prefix_open : FileSpecOps.ends_in_slash prefix = false.
Hypothesis prefix_plain : path.sep_at prefix 1 = false.
Hypothesis segment_nonempty : segment <> "".
Hypothesis segment_plain : no_separator segment = true.

Local Abbreviation n := (String.length prefix).
Local Abbreviation whole := (join_segment prefix segment).

Lemma sep_at_whole_prefix (i : nat) :
  i < n -> path.sep_at whole i = path.sep_at prefix i.
Proof.
  intro H. unfold path.sep_at, join_segment. now rewrite get_append_l.
Qed.

Lemma sep_at_whole_slash : path.sep_at whole n = true.
Proof.
  unfold path.sep_at, join_segment.
  rewrite <- (Nat.add_0_r (String.length prefix)), get_append_r. reflexivity.
Qed.

Lemma sep_at_whole_segment (k : nat) : path.sep_at whole (n + S k) = false.
Proof.
  unfold path.sep_at, join_segment. rewrite get_append_r. simpl.
  apply (no_separator_sep_at segment k segment_plain).
Qed.

Lemma sep_at_prefix_last : path.sep_at prefix (n - 1) = false.
Proof. exact prefix_open. Qed.

Lemma prefix_length : 0 < n.
Proof. destruct prefix; [now elim prefix_nonempty | simpl; lia]. Qed.

Lemma segment_length : 0 < String.length segment.
Proof. destruct segment; [now elim segment_nonempty | simpl; lia]. Qed.

Lemma whole_length : String.length whole = n + S (String.length segment).
Proof. unfold join_segment. now rewrite string_length_append. Qed.

Lemma find_last_of_whole (k : nat) : path.find_last_of whole (n + k) = Some n.
Proof.
  induction k as [| k IH]; rewrite find_last_of_eq.
  - now rewrite Nat.add_0_r, sep_at_whole_slash.
  - rewrite sep_at_whole_segment. now rewrite Nat.add_succ_r.
Qed.

Lemma sep_at_whole_first_two :
  path.sep_at whole 0 && path.sep_at whole 1 = false.
Proof.
  pose proof prefix_length as Hn.
  destruct (Nat.eq_dec n 1) as [E | E].
  - rewrite sep_at_whole_prefix by lia.
    pose proof sep_at_prefix_last as H. rewrite E in H. simpl in H.
    now rewrite H.
  - rewrite (sep_at_whole_prefix 1) by lia. rewrite prefix_plain.
    apply andb_false_r.
Qed.

Lemma filename_pos_whole : path.filename_pos whole = n + 1.
Proof.
  pose proof segment_length as Hm. pose proof prefix_length as Hn.
  unfold path.filename_pos. rewrite whole_length.
  replace (n + S (String.length segment) - 1)
    with (n + S (String.length segment - 1)) by lia.
  rewrite sep_at_whole_segment, find_last_of_whole.
  replace (0 <? n + S (String.length segment))%nat with true
    by (symmetry; apply Nat.ltb_lt; lia).
  simpl andb. cbv iota.
  destruct (Nat.eqb_spec n 1) as [E | E]; [| reflexivity].
  rewrite sep_at_whole_prefix by lia.
  pose proof sep_at_prefix_last as H. rewrite E in H. simpl in H.
  now rewrite H.
Qed.

Lemma root_dir_start_whole :
  path.root_dir_start whole = None \/ path.root_dir_start whole = Some 0.
Proof.
  unfold path.root_dir_start.
  rewrite <- (andb_assoc (3 <? String.length whole)%nat).
  rewrite sep_at_whole_first_two, andb_false_r. simpl.
  destruct (_ && _); auto.
Qed.

Lemma skip_separators_whole (root : option nat) :
  root = None \/ root = Some 0 ->
  path.skip_separators whole root (n + 1) = n.
Proof.
  pose proof prefix_length as Hn. pose proof sep_at_whole_slash as Hs.
  pose proof sep_at_prefix_last as Hl.
  pose proof (sep_at_whole_prefix (n - 1)) as Hp.
  intro Hr. rewrite Nat.add_1_r.
  destruct (String.length prefix) as [| m]; [lia |].
  simpl in Hl, Hp. rewrite Nat.sub_0_r in Hl, Hp.
  cbn [path.skip_separators]. rewrite Hs, Hp, Hl by lia.
  rewrite andb_false_r.
  destruct Hr as [-> | ->]; reflexivity.
Qed.

(** The parent of [prefix/segment] is [prefix]. *)
Lemma parent_path_last_segment : path.parent_path whole = prefix.
Proof.
  pose proof prefix_length as Hn.
  unfold path.parent_path, path.parent_path_end.
  rewrite filename_pos_whole.
  rewrite (skip_separators_whole _ root_dir_start_whole).
  destruct root_dir_start_whole as [-> | ->].
  - apply substring_append_l.
  - replace (n =? 0)%nat with false by (symmetry; apply Nat.eqb_neq; lia).
    apply substring_append_l.
Qed.

End LastSegment.

(** X13: the derivation replaces the last segment of the library directory
    by the suffix.  When the path of the shared-library directory is
    [prefix/segment], where [segment] is non-empty and holds no slash and
    [prefix] is non-empty, does not end in a slash and has no slash as its
    second character, [ComputePathRelativeToLibrary] succeeds and sets the
    output directory to [prefix] followed by the suffix. *)
Theorem ComputePathRelativeToLibrary_last_segment
    (os : Host) (file_spec : FileSpec) (dir prefix segment : string) :
  prefix <> "" ->
  FileSpecOps.ends_in_slash prefix = false ->
  path.sep_at prefix 1 = false ->
  segment <> "" ->
  no_separator segment = true ->
  FileSpecOps.GetPath (os_GetShlibDir os) = join_segment prefix segment ->
  value (ComputePathRelativeToLibrary os file_spec dir) =
    Ok (true, mkFileSpec (prefix ++ dir) (m_filename file_spec)).
Proof.
  intros Hp Ho Hpl Hs Hsl E.
  rewrite ComputePathRelativeToLibrary_cases, E.
  rewrite (parent_path_last_segment prefix segment Hp Ho Hpl Hs Hsl).
  assert (Hb : FileSpecOps.to_bool (os_GetShlibDir os) = true).
  { apply to_bool_of_GetPath. rewrite E. unfold join_segment. intro H.
    apply append_empty_l in H. contradiction. }
  rewrite Hb, (string_eqb_empty_false prefix Hp). reflexivity.
Qed.

Lemma ComputePathRelativeToLibrary_last_segment_witness :
  value (ComputePathRelativeToLibrary sample_host
           (mkFileSpec "" "lldb-server") "/libexec")
  = Ok (true, mkFileSpec "/opt/llvm/lib/libexec" "lldb-server").
Proof.
  apply (ComputePathRelativeToLibrary_last_segment sample_host
           (mkFileSpec "" "lldb-server") "/libexec" "/opt/llvm/lib" "x86_64");
    (discriminate || reflexivity).
Defined.

Lemma find_last_of_no_separator (s : string) (from : nat) :
  no_separator s = true -> path.find_last_of s from = None.
Proof.
  intro H. induction from as [| from IH]; rewrite find_last_of_eq;
    rewrite (no_separator_sep_at s _ H); [reflexivity | exact IH].
Qed.

(** The parent of a path that holds no slash is empty. *)
Lemma parent_path_single_segment (s : string) :
  no_separator s = true -> path.parent_path s = "".
Proof.
  intro H.
  assert (Hf : path.filename_pos s = 0).
  { unfold path.filename_pos.
    rewrite (no_separator_sep_at s _ H), andb_false_r.
    rewrite (find_last_of_no_separator s _ H).
    now destruct (0 <? String.length s)%nat. }
  assert (Hr : path.root_dir_start s = None).
  { unfold path.root_dir_start.
    rewrite !(no_separator_sep_at s _ H), !andb_false_r. reflexivity. }
  unfold path.parent_path, path.parent_path_end. rewrite Hf, Hr. simpl.
  now destruct s.
Qed.

(** X14: when the path of the shared-library directory is a single segment,
    with no slash in it, there is nothing to replace:
    [ComputePathRelativeToLibrary] succeeds with that very path as the
    output directory, and the suffix is not used. *)
Theorem ComputePathRelativeToLibrary_single_segment
    (os : Host) (file_spec : FileSpec) (dir : string) :
  FileSpecOps.to_bool (os_GetShlibDir os) = true ->
  no_separator (FileSpecOps.GetPath (os_GetShlibDir os)) = true ->
  value (ComputePathRelativeToLibrary os file_spec dir) =
    Ok (true,
        mkFileSpec (FileSpecOps.GetPath (os_GetShlibDir os))
                   (m_filename file_spec)).
Proof.
  intros Hb Hs.
  rewrite ComputePathRelativeToLibrary_cases, Hb.
  rewrite (parent_path_single_segment _ Hs). reflexivity.
Qed.

Lemma ComputePathRelativeToLibrary_single_segment_witness :
  value (ComputePathRelativeToLibrary
           (with_shlib_dir sample_host (mkFileSpec "" "lib"))
           (mkFileSpec "" "lldb-server") "/bin")
  = Ok (true, mkFileSpec "lib" "lldb-server").
Proof.
  apply (ComputePathRelativeToLibrary_single_segment
           (with_shlib_dir sample_host (mkFileSpec "" "lib"))
           (mkFileSpec "" "lldb-server") "/bin");
    reflexivity.
Defined.
